(** * asphalt-serialization: the default custom type codec

    A shallow embedding of [asphalt/serialization/object_codec.py]
    ([DefaultCustomTypeCodec]) and the properties of its tagging protocol:
    [default_encoder], [default_decoder], [wrap_state_dict] and
    [unwrap_state_dict].

    Python objects are modelled by the inductive [value]; instances of user
    classes live in a store ([heap]) so that in-place population by an
    unmarshaller and the identity of the returned instance can be stated.
    Code that may raise runs in the state-and-exception monad [M]. *)

From stdpp Require Import gmap strings list fin_maps countable.
Set Warnings "-register-all".

(** ** Classes *)

(** A class is identified by its module, its qualified name and its bases,
    which is what [obj.__class__] exposes to the codec. *)
Inductive pyclass : Type :=
  PyClass (module qualname : string) (bases : list pyclass).

Definition cls_module (c : pyclass) : string := let 'PyClass m _ _ := c in m.
Definition cls_qualname (c : pyclass) : string := let 'PyClass _ q _ := c in q.
Definition cls_bases (c : pyclass) : list pyclass := let 'PyClass _ _ bs := c in bs.

Section pyclass_induction.
Variable P : pyclass → Prop.
Hypothesis step : ∀ m q bs, Forall P bs → P (PyClass m q bs).

Fixpoint pyclass_ind_bases (c : pyclass) : P c :=
  match c with
  | PyClass m q bs =>
      step m q bs
        ((fix go (l : list pyclass) : Forall P l :=
            match l with
            | [] => Forall_nil_2 P
            | b :: l' => Forall_cons_2 P b l' (pyclass_ind_bases b) (go l')
            end) bs)
  end.
End pyclass_induction.

(** Classes are dictionary keys (the marshal table is keyed by class), so
    they are given a countable encoding into generic trees. *)
Fixpoint pyclass_to_tree (c : pyclass) : gen_tree string :=
  match c with
  | PyClass m q bs => GenNode 0 (GenLeaf m :: GenLeaf q :: map pyclass_to_tree bs)
  end.

Fixpoint tree_to_pyclass (t : gen_tree string) : option pyclass :=
  match t with
  | GenNode _ (GenLeaf m :: GenLeaf q :: ts) =>
      bs ← (fix go (l : list (gen_tree string)) : option (list pyclass) :=
              match l with
              | [] => Some []
              | t' :: l' => b ← tree_to_pyclass t'; r ← go l'; Some (b :: r)
              end) ts;
      Some (PyClass m q bs)
  | _ => None
  end.

Lemma tree_to_pyclass_to_tree c : tree_to_pyclass (pyclass_to_tree c) = Some c.
Proof.
  induction c as [m q bs IH] using pyclass_ind_bases. simpl.
  induction IH as [|b bs Hb _ IHbs]; [done|].
  simpl. rewrite Hb. simpl.
  destruct (_ (map pyclass_to_tree bs)) as [r|] eqn:E; simpl in *; [|done].
  by inversion IHbs.
Qed.

#[global] Instance pyclass_eq_dec : EqDecision pyclass.
Proof.
  intros c1 c2.
  destruct (decide (pyclass_to_tree c1 = pyclass_to_tree c2)) as [E|E].
  - left. apply (f_equal tree_to_pyclass) in E.
    rewrite !tree_to_pyclass_to_tree in E. by inversion E.
  - right. intros ->. by apply E.
Defined.

#[global] Instance pyclass_countable : Countable pyclass :=
  inj_countable pyclass_to_tree tree_to_pyclass tree_to_pyclass_to_tree.

(** [c'] is a proper superclass of [c]: a base, or a superclass of a base. *)
Fixpoint superclasses (c : pyclass) : list pyclass :=
  match c with
  | PyClass _ _ bs =>
      (fix go (l : list pyclass) : list pyclass :=
         match l with
         | [] => []
         | b :: l' => b :: superclasses b ++ go l'
         end) bs
  end.

Definition builtin (name : string) (bases : list pyclass) : pyclass :=
  PyClass "builtins" name bases.

Definition object_class : pyclass := builtin "object" [].
Definition NoneType_class : pyclass := builtin "NoneType" [object_class].
Definition int_class : pyclass := builtin "int" [object_class].
Definition bool_class : pyclass := builtin "bool" [int_class].
Definition str_class : pyclass := builtin "str" [object_class].
Definition list_class : pyclass := builtin "list" [object_class].
Definition dict_class : pyclass := builtin "dict" [object_class].

(** ** Values *)

(** The primitive kinds the underlying serializer understands (null,
    boolean, number, string, sequence, string-keyed composite) and
    references to instances of user classes.  An instance reference carries
    its class and the location of its attribute dictionary in the store. *)
Inductive value : Type :=
  | VNone
  | VBool (b : bool)
  | VNum (n : Z)
  | VStr (s : string)
  | VList (l : list value)
  | VDict (d : gmap string value)
  | VObj (cls : pyclass) (loc : nat).

(** [obj.__class__] *)
Definition py_class (obj : value) : pyclass :=
  match obj with
  | VNone => NoneType_class
  | VBool _ => bool_class
  | VNum _ => int_class
  | VStr _ => str_class
  | VList _ => list_class
  | VDict _ => dict_class
  | VObj cls _ => cls
  end.

(** ** Exceptions and the monad of Python code *)

Inductive exn : Type :=
  | TypeError (msg : string)
  | AttributeError (msg : string)
  | KeyError (key : value)
  | LookupError (msg : string)
  | UserError (cls : string) (args : list value).

Inductive result (A : Type) : Type :=
  | Ok (a : A)
  | Raise (e : exn).
Arguments Ok {A} a.
Arguments Raise {A} e.

(** The store: the attribute dictionary of each allocated instance. *)
Definition heap : Type := list (gmap string value).

Definition M (A : Type) : Type := heap → heap * result A.

#[global] Instance M_ret : MRet M := λ A a h, (h, Ok a).
#[global] Instance M_bind : MBind M := λ A B f c h,
  match c h with
  | (h', Ok a) => f a h'
  | (h', Raise e) => (h', Raise e)
  end.

Definition raise {A : Type} (e : exn) : M A := λ h, (h, Raise e).
Definition lift {A : Type} (r : result A) : M A := λ h, (h, r).

(** A Python callable: applied to its positional arguments it may read and
    write the store, return a value or raise. *)
Abbreviation callable := (list value → M value).

(** ** Built-in operations used by the codec *)

Definition no_len_msg (tp : string) : string :=
  "object of type '" +:+ tp +:+ "' has no len()".
Definition no_get_msg (tp : string) : string :=
  "'" +:+ tp +:+ "' object has no attribute 'get'".

(** [len(obj)] *)
Definition py_len (obj : value) : result nat :=
  match obj with
  | VStr s => Ok (String.length s)
  | VList l => Ok (length l)
  | VDict d => Ok (size d)
  | _ => Raise (TypeError (no_len_msg (cls_qualname (py_class obj))))
  end.

(** [obj.get(key)]: only dictionaries have the method; a missing key gives
    [None]. *)
Definition py_get (obj : value) (key : string) : result value :=
  match obj with
  | VDict d => Ok (default VNone (d !! key))
  | _ => Raise (AttributeError (no_get_msg (cls_qualname (py_class obj))))
  end.

(** [cls.__new__(cls)]: a fresh instance with an empty attribute dictionary;
    no initializer runs. *)
Definition py_new (cls : pyclass) : M value :=
  λ h, (h ++ [∅], Ok (VObj cls (length h))).

(** [getattr] and [setattr] on instances, for the marshallers and
    unmarshallers of the examples. *)
Definition py_getattr (obj : value) (name : string) : M value := λ h,
  match obj with
  | VObj _ l =>
      match h !! l ≫= (.!! name) with
      | Some v => (h, Ok v)
      | None => (h, Raise (AttributeError name))
      end
  | _ => (h, Raise (AttributeError name))
  end.

Definition py_setattr (obj : value) (name : string) (v : value) : M unit := λ h,
  match obj with
  | VObj _ l =>
      match h !! l with
      | Some attrs => (<[l := <[name := v]> attrs]> h, Ok ())
      | None => (h, Raise (AttributeError name))
      end
  | _ => (h, Raise (AttributeError name))
  end.

(** ** The serializer's registry *)

Abbreviation marshal_entry := (string * callable * bool)%type.
Abbreviation unmarshal_entry := (option pyclass * callable)%type.

(** Modelled from the spec: the two lookup tables of
    [asphalt.serialization.api.CustomizableSerializer], which the codec only
    reads through [self.serializer].  [marshallers] maps a runtime class to
    [(type_name, marshal_fn, wrap_flag)]; [unmarshallers] maps a type name
    to [(factory or none, unmarshal_fn)]. *)
Record CustomizableSerializer : Type := {
  marshallers : gmap pyclass marshal_entry;
  unmarshallers : gmap string unmarshal_entry
}.

(** [unmarshallers[key]] for an arbitrary key object: lists and
    dictionaries are unhashable, every other non-string key is simply
    absent from a table keyed by strings. *)
Definition unmarshallers_getitem (ser : CustomizableSerializer) (key : value)
  : result unmarshal_entry :=
  match key with
  | VStr name =>
      match unmarshallers ser !! name with
      | Some entry => Ok entry
      | None => Raise (KeyError key)
      end
  | VList _ | VDict _ =>
      Raise (TypeError ("unhashable type: '" +:+ cls_qualname (py_class key) +:+ "'"))
  | _ => Raise (KeyError key)
  end.

(** ** The codec *)

Record DefaultCustomTypeCodec : Type := {
  serializer : CustomizableSerializer;
  type_key : string;
  state_key : string;
  wrap_callback : string → value → M value;
  unwrap_callback : value → M (value * value)
}.

(** The dictionary display [{type_key: typename, state_key: state}]: the
    second item overwrites the first when both keys are the same string. *)
Definition state_dict (type_key state_key typename : string) (state : value)
  : gmap string value :=
  <[state_key := state]> (<[type_key := VStr typename]> ∅).

Definition unwrap_dict (type_key state_key : string) (obj : value)
  : result (value * value) :=
  match py_len obj with
  | Raise e => Raise e
  | Ok n =>
      if decide (n = 2) then
        match py_get obj type_key with
        | Raise e => Raise e
        | Ok typename =>
            match py_get obj state_key with
            | Raise e => Raise e
            | Ok state =>
                match typename with
                | VNone => Ok (VNone, VNone)
                | _ => Ok (typename, state)
                end
            end
        end
      else Ok (VNone, VNone)
  end.

Definition wrap_state_dict (self : DefaultCustomTypeCodec)
  (typename : string) (state : value) : M value :=
  mret (VDict (state_dict (type_key self) (state_key self) typename state)).

Definition unwrap_state_dict (self : DefaultCustomTypeCodec) (obj : value)
  : M (value * value) :=
  lift (unwrap_dict (type_key self) (state_key self) obj).

(** [__init__]: stores the two keys and installs the bound methods
    [wrap_state_dict] and [unwrap_state_dict] as the callbacks.  The
    serializer attribute is assigned when the serializer adopts the codec;
    it is passed here. *)
Definition init (ser : CustomizableSerializer) (type_key state_key : string)
  : DefaultCustomTypeCodec :=
  {| serializer := ser;
     type_key := type_key;
     state_key := state_key;
     wrap_callback := λ typename state,
       mret (VDict (state_dict type_key state_key typename state));
     unwrap_callback := λ obj, lift (unwrap_dict type_key state_key obj) |}.

Definition default_type_key : string := "__type__".
Definition default_state_key : string := "state".

Definition dquote : string := String (Ascii.ascii_of_nat 34) EmptyString.

Section Codec.
(** [asphalt.core.qualified_name], from the framework's core package. *)
Variable qualified_name : pyclass → string.
(** [str(v)] for a value that is not a string, as an f-string renders it. *)
Variable py_repr : value → string.

Definition py_format (v : value) : string :=
  match v with
  | VStr s => s
  | _ => py_repr v
  end.

Definition no_marshaller_msg (obj_type : pyclass) : string :=
  "no marshaller found for type " +:+ dquote +:+ qualified_name obj_type +:+ dquote.

Definition no_unmarshaller_msg (typename : value) : string :=
  "no unmarshaller found for type " +:+ dquote +:+ py_format typename +:+ dquote.

Definition default_encoder (self : DefaultCustomTypeCodec) (obj : value) : M value :=
  let obj_type := py_class obj in
  match (marshallers (serializer self) !! obj_type : option marshal_entry) with
  | None => raise (LookupError (no_marshaller_msg obj_type))
  | Some (typename, marshaller, wrap_state) =>
      state ← marshaller [obj];
      if wrap_state then wrap_callback self typename state else mret state
  end.

Definition default_decoder (self : DefaultCustomTypeCodec) (obj : value) : M value :=
  '(typename, marshalled_state) ← unwrap_callback self obj;
  match typename with
  | VNone => mret obj
  | _ =>
      match unmarshallers_getitem (serializer self) typename with
      | Raise (KeyError _) => raise (LookupError (no_unmarshaller_msg typename))
      | Raise e => raise e
      | Ok (Some cls, unmarshaller) =>
          instance ← py_new cls;
          _ ← unmarshaller [instance; marshalled_state];
          mret instance
      | Ok (None, unmarshaller) => unmarshaller [marshalled_state]
      end
  end.

End Codec.

(** The found branch of the decode path as the specification words it:
    with a factory, allocate an uninitialized instance, let the unmarshal
    function populate it in place and return the instance; without one,
    return what the unmarshal function returns. *)
Definition reconstruct (entry : unmarshal_entry) (state : value) : M value :=
  match entry with
  | (Some factory, unmarshal_fn) =>
      instance ← py_new factory;
      _ ← unmarshal_fn [instance; state];
      mret instance
  | (None, unmarshal_fn) => unmarshal_fn [state]
  end.

(** Objects that can be dictionary keys. *)
Definition py_hashable (v : value) : bool :=
  match v with
  | VList _ | VDict _ => false
  | _ => true
  end.

(** Two instances are observably equal when they have the same class and
    the same attributes, each read in its own store. *)
Definition instance_eq (a b : heap * value) : Prop :=
  match a.2, b.2 with
  | VObj c1 l1, VObj c2 l2 =>
      c1 = c2 ∧ is_Some (a.1 !! l1) ∧ a.1 !! l1 = b.1 !! l2
  | _, _ => False
  end.

(** ** A registry for the examples: the [Point] scenario *)

Definition dotted_name (c : pyclass) : string :=
  if decide (cls_module c = "builtins") then cls_qualname c
  else cls_module c +:+ "." +:+ cls_qualname c.

Definition plain_repr (v : value) : string :=
  match v with
  | VNone => "None"
  | VBool true => "True"
  | VBool false => "False"
  | _ => "<object>"
  end.

(** [state[key]] *)
Definition py_getitem (obj : value) (key : string) : M value :=
  match obj with
  | VDict d =>
      match d !! key with
      | Some v => mret v
      | None => raise (KeyError (VStr key))
      end
  | _ => raise (TypeError ("'" +:+ cls_qualname (py_class obj) +:+ "' object is not subscriptable"))
  end.

Definition Point : pyclass := PyClass "geometry" "Point" [object_class].
Definition Point3D : pyclass := PyClass "geometry" "Point3D" [Point].

(** [lambda p: {'x': p.x, 'y': p.y}] *)
Definition marshal_point : callable := λ args,
  match args with
  | [p] =>
      x ← py_getattr p "x";
      y ← py_getattr p "y";
      mret (VDict (<["y" := y]> (<["x" := x]> ∅)))
  | _ => raise (TypeError "marshal_point() takes 1 positional argument")
  end.

(** [def unmarshal_point(instance, state): instance.x = state['x']; ...] *)
Definition unmarshal_point : callable := λ args,
  match args with
  | [instance; state] =>
      x ← py_getitem state "x";
      _ ← py_setattr instance "x" x;
      y ← py_getitem state "y";
      _ ← py_setattr instance "y" y;
      mret VNone
  | _ => raise (TypeError "unmarshal_point() takes 2 positional arguments")
  end.

(** A factory-less unmarshaller, responsible for construction itself. *)
Definition make_point : callable := λ args,
  match args with
  | [state] =>
      instance ← py_new Point;
      _ ← unmarshal_point [instance; state];
      mret instance
  | _ => raise (TypeError "make_point() takes 1 positional argument")
  end.

Definition point_registry (wrap_flag : bool) (factory : option pyclass)
  (unmarshal_fn : callable) : CustomizableSerializer :=
  {| marshallers := {[ Point := ("Point", marshal_point, wrap_flag) ]};
     unmarshallers := {[ "Point" := (factory, unmarshal_fn) ]} |}.

Definition point_attrs (x y : Z) : gmap string value :=
  <["y" := VNum y]> (<["x" := VNum x]> ∅).

(** A store holding [Point(1, 2)] at location [0]. *)
Definition point_heap : heap := [point_attrs 1 2].
Definition point_1_2 : value := VObj Point 0.

(** The tagged form of [Point(1, 2)] under the default keys. *)
Definition tagged_point : gmap string value :=
  state_dict "__type__" "state" "Point" (VDict (point_attrs 1 2)).

(** The store after decoding [tagged_point] next to the original. *)
Definition decoded_heap : heap := point_heap ++ [point_attrs 1 2].

(** The codec of the examples, with the framework's naming function. *)
Definition point_codec (wrap_flag : bool) (factory : option pyclass)
  (unmarshal_fn : callable) (type_key state_key : string) : DefaultCustomTypeCodec :=
  init (point_registry wrap_flag factory unmarshal_fn) type_key state_key.

Definition encode : DefaultCustomTypeCodec → value → M value :=
  default_encoder dotted_name.
Definition decode : DefaultCustomTypeCodec → value → M value :=
  default_decoder plain_repr.

(** A replacement for the two callbacks, assigned after construction: the
    type name and the state travel as a two-element sequence
    [[typename, state]] instead of a dictionary. *)
Definition pair_wrap : string → value → M value :=
  λ typename state, mret (VList [VStr typename; state]).

Definition pair_unwrap : value → M (value * value) := λ obj,
  match obj with
  | VList [typename; state] => mret (typename, state)
  | _ => mret (VNone, VNone)
  end.

Definition with_callbacks (self : DefaultCustomTypeCodec)
  (wrap : string → value → M value) (unwrap : value → M (value * value))
  : DefaultCustomTypeCodec :=
  {| serializer := serializer self;
     type_key := type_key self;
     state_key := state_key self;
     wrap_callback := wrap;
     unwrap_callback := unwrap |}.

(** A marshaller whose state has the tagged shape of another type. *)
Definition marshal_as_point : callable := λ args,
  match args with
  | [_] => mret (VDict tagged_point)
  | _ => raise (TypeError "marshal_as_point() takes 1 positional argument")
  end.

Definition Alias : pyclass := PyClass "geometry" "Alias" [object_class].

Definition alias_registry : CustomizableSerializer :=
  {| marshallers :=
       <[Alias := ("Alias", marshal_as_point, false)]>
         (<[Point := ("Point", marshal_point, false)]> ∅);
     unmarshallers := {[ "Point" := (Some Point, unmarshal_point) ]} |}.

(** A registry that can marshal [Point] and has no unmarshaller at all. *)
Definition marshal_only_registry : CustomizableSerializer :=
  {| marshallers := {[ Point := ("Point", marshal_point, true) ]};
     unmarshallers := ∅ |}.

(** [Point3D] is marshalled under the type name of [Point]. *)
Definition shared_name_registry : CustomizableSerializer :=
  {| marshallers := {[ Point3D := ("Point", marshal_point, true) ]};
     unmarshallers := {[ "Point" := (Some Point, unmarshal_point) ]} |}.

(** Callbacks that fail. *)
Definition failing_wrap : string → value → M value :=
  λ _ _, raise (UserError "ValueError" [VStr "cannot wrap"]).
Definition failing_unwrap : value → M (value * value) :=
  λ _, raise (UserError "ValueError" [VStr "cannot unwrap"]).

(** * Properties *)

(** ** The monad and the built-in operations *)

Ltac unfold_M :=
  unfold mbind, M_bind, mret, M_ret, raise, lift in *.

Lemma bind_ok {A B} (c : M A) (f : A → M B) h h' a :
  c h = (h', Ok a) → (c ≫= f) h = f a h'.
Proof. intros E. unfold_M. by rewrite E. Qed.

Lemma bind_raise {A B} (c : M A) (f : A → M B) h h' e :
  c h = (h', Raise e) → (c ≫= f) h = (h', Raise e).
Proof. intros E. unfold_M. by rewrite E. Qed.

Lemma py_new_fresh cls h :
  py_new cls h = (h ++ [∅], Ok (VObj cls (length h)))
  ∧ h !! length h = None
  ∧ (h ++ [∅]) !! length h = Some ∅.
Proof.
  split_and!; [done | by apply lookup_ge_None_2 |].
  by rewrite lookup_app_r, Nat.sub_diag.
Qed.

(** ** The default wrap/unwrap strategy *)

Lemma init_wrap_callback ser tk sk :
  wrap_callback (init ser tk sk) = wrap_state_dict (init ser tk sk).
Proof. reflexivity. Qed.

Lemma init_unwrap_callback ser tk sk :
  unwrap_callback (init ser tk sk) = unwrap_state_dict (init ser tk sk).
Proof. reflexivity. Qed.

Lemma state_dict_dom tk sk t s :
  dom (state_dict tk sk t s) = ({[tk; sk]} : gset string).
Proof.
  unfold state_dict. rewrite !dom_insert_L, dom_empty_L, union_empty_r_L.
  apply (comm_L (∪)).
Qed.

Lemma state_dict_lookup_state tk sk t s :
  state_dict tk sk t s !! sk = Some s.
Proof. unfold state_dict. by rewrite lookup_insert_eq. Qed.

Lemma state_dict_lookup_type tk sk t s :
  tk ≠ sk → state_dict tk sk t s !! tk = Some (VStr t).
Proof.
  intros Hne. unfold state_dict.
  rewrite lookup_insert_ne by done. by rewrite lookup_insert_eq.
Qed.

Lemma state_dict_lookup_other tk sk t s k :
  k ≠ tk → k ≠ sk → state_dict tk sk t s !! k = None.
Proof.
  intros H1 H2. unfold state_dict.
  by rewrite !lookup_insert_ne, lookup_empty.
Qed.

Lemma state_dict_size tk sk t s :
  tk ≠ sk → size (state_dict tk sk t s) = 2.
Proof.
  intros Hne. unfold state_dict.
  rewrite map_size_insert_None.
  - by rewrite map_size_insert_None, map_size_empty.
  - rewrite lookup_insert_ne by done. apply lookup_empty.
Qed.

Lemma state_dict_same_key k t s : size (state_dict k k t s) = 1.
Proof.
  unfold state_dict. rewrite insert_insert_eq.
  by rewrite map_size_insert_None, map_size_empty.
Qed.

(** What [unwrap_state_dict] computes on a dictionary. *)
Lemma unwrap_dict_tagged tk sk d t :
  size d = 2 → d !! tk = Some t → t ≠ VNone →
  unwrap_dict tk sk (VDict d) = Ok (t, default VNone (d !! sk)).
Proof.
  intros Hsz Ht Hn. unfold unwrap_dict. simpl.
  rewrite decide_True by done. rewrite Ht. simpl.
  destruct t; congruence.
Qed.

Lemma unwrap_dict_untagged tk sk d :
  d !! tk = None ∨ d !! tk = Some VNone ∨ size d ≠ 2 →
  unwrap_dict tk sk (VDict d) = Ok (VNone, VNone).
Proof.
  intros H. unfold unwrap_dict. simpl.
  case_decide as Hsz; [|done].
  destruct H as [-> | [-> | ?]]; done.
Qed.

Lemma unwrap_dict_state_dict tk sk t s :
  tk ≠ sk → unwrap_dict tk sk (VDict (state_dict tk sk t s)) = Ok (VStr t, s).
Proof.
  intros Hne.
  rewrite (unwrap_dict_tagged tk sk _ (VStr t));
    [by rewrite state_dict_lookup_state
    | by apply state_dict_size | by apply state_dict_lookup_type | done].
Qed.

(** ** The encode and decode paths *)

Section CodecProperties.
Variable qualified_name : pyclass → string.
Variable py_repr : value → string.

(** The two outcomes of the marshal-table lookup. *)
Lemma default_encoder_unregistered self obj h :
  marshallers (serializer self) !! py_class obj = None →
  default_encoder qualified_name self obj h
  = (h, Raise (LookupError (no_marshaller_msg qualified_name (py_class obj)))).
Proof. intros E. unfold default_encoder; cbv zeta. by rewrite E. Qed.

Lemma default_encoder_registered self obj typename marshaller (wrap_state : bool) :
  marshallers (serializer self) !! py_class obj
  = Some (typename, marshaller, wrap_state) →
  default_encoder qualified_name self obj
  = (marshaller [obj] ≫= λ state,
       if wrap_state then wrap_callback self typename state else mret state).
Proof. intros E. unfold default_encoder; cbv zeta. by rewrite E. Qed.

(** The outcomes of the decode path once the unwrap function has answered. *)
Lemma default_decoder_sentinel self obj h h' state :
  unwrap_callback self obj h = (h', Ok (VNone, state)) →
  default_decoder py_repr self obj h = (h', Ok obj).
Proof.
  intros E. unfold default_decoder.
  by rewrite (bind_ok _ _ _ _ _ E).
Qed.

Lemma default_decoder_found self obj h h' name state entry :
  unwrap_callback self obj h = (h', Ok (VStr name, state)) →
  unmarshallers (serializer self) !! name = Some entry →
  default_decoder py_repr self obj h = reconstruct entry state h'.
Proof.
  intros E Hu. unfold default_decoder.
  rewrite (bind_ok _ _ _ _ _ E). simpl. rewrite Hu.
  by destruct entry as [[cls|] u].
Qed.

Lemma default_decoder_not_found self obj h h' typename state :
  unwrap_callback self obj h = (h', Ok (typename, state)) →
  typename ≠ VNone →
  py_hashable typename = true →
  (∀ name, typename = VStr name → unmarshallers (serializer self) !! name = None) →
  default_decoder py_repr self obj h
  = (h', Raise (LookupError (no_unmarshaller_msg py_repr typename))).
Proof.
  intros E Hn Hh Hu. unfold default_decoder.
  rewrite (bind_ok _ _ _ _ _ E).
  destruct typename; try done; simpl.
  by rewrite (Hu _ eq_refl).
Qed.

(** An unhashable tag makes the table lookup itself fail with a
    [TypeError], which the [except KeyError] clause does not intercept. *)
Lemma default_decoder_unhashable self obj h h' typename state :
  unwrap_callback self obj h = (h', Ok (typename, state)) →
  py_hashable typename = false →
  ∃ msg, default_decoder py_repr self obj h = (h', Raise (TypeError msg)).
Proof.
  intros E Hh. unfold default_decoder.
  rewrite (bind_ok _ _ _ _ _ E).
  destruct typename; try done; simpl; eauto.
Qed.

Lemma default_decoder_unwrap_raises self obj h h' e :
  unwrap_callback self obj h = (h', Raise e) →
  default_decoder py_repr self obj h = (h', Raise e).
Proof. intros E. unfold default_decoder. by rewrite (bind_raise _ _ _ _ _ E). Qed.

(** The default decoder on values that are not dictionaries: [len] or
    [get] fail, except for strings and sequences whose length is not two. *)
Lemma default_decoder_no_len ser tk sk obj h :
  py_len obj = Raise (TypeError (no_len_msg (cls_qualname (py_class obj)))) →
  default_decoder py_repr (init ser tk sk) obj h
  = (h, Raise (TypeError (no_len_msg (cls_qualname (py_class obj))))).
Proof.
  intros E. apply default_decoder_unwrap_raises.
  simpl. unfold lift, unwrap_dict. by rewrite E.
Qed.

Lemma default_encoder_marshalled self obj typename m (wrap_flag : bool) h h1 state :
  marshallers (serializer self) !! py_class obj = Some (typename, m, wrap_flag) →
  m [obj] h = (h1, Ok state) →
  default_encoder qualified_name self obj h
  = if wrap_flag then wrap_callback self typename state h1 else (h1, Ok state).
Proof.
  intros Hreg Hm. rewrite (default_encoder_registered _ _ _ _ _ Hreg).
  rewrite (bind_ok _ _ _ _ _ Hm). by destruct wrap_flag.
Qed.

Lemma default_decoder_untagged ser tk sk (d : gmap string value) h :
  d !! tk = None ∨ d !! tk = Some VNone ∨ size d ≠ 2 →
  default_decoder py_repr (init ser tk sk) (VDict d) h = (h, Ok (VDict d)).
Proof.
  intros Hd. apply default_decoder_sentinel with (state := VNone).
  simpl. unfold lift. by rewrite unwrap_dict_untagged.
Qed.

(** C2 (amended): for any key-value composite [d] that is not a two-entry
    composite whose value at the configured type key is present and
    non-null, [default_decoder] returns [d] unchanged and leaves the store
    as it was. *)
Theorem default_decoder_passthrough ser tk sk (d : gmap string value) h :
  ¬ (size d = 2 ∧ ∃ t, d !! tk = Some t ∧ t ≠ VNone) →
  default_decoder py_repr (init ser tk sk) (VDict d) h = (h, Ok (VDict d)).
Proof.
  intros Hnot. apply default_decoder_untagged.
  destruct (decide (size d = 2)) as [Hsz|]; [|auto].
  destruct (d !! tk) as [t|] eqn:Ht; [|auto].
  destruct t; auto; exfalso; apply Hnot; split; eauto.
Qed.

(** C3: [wrap_state_dict] always yields a dictionary whose keys are exactly
    the two configured keys, holding the state under the state key (and the
    type name under the type key, two entries in all, when the keys
    differ); [unwrap_state_dict] on a dictionary that lacks the type key,
    holds null there, or has more or fewer than two entries answers the
    sentinel [(None, None)]. *)
Theorem tag_shape_invariant (self : DefaultCustomTypeCodec) :
  (∀ t s h, ∃ d : gmap string value,
      wrap_state_dict self t s h = (h, Ok (VDict d))
      ∧ dom d = {[type_key self; state_key self]}
      ∧ d !! state_key self = Some s
      ∧ (type_key self ≠ state_key self →
         d !! type_key self = Some (VStr t) ∧ size d = 2))
  ∧ (∀ (d : gmap string value) h,
      d !! type_key self = None ∨ d !! type_key self = Some VNone ∨ size d ≠ 2 →
      unwrap_state_dict self (VDict d) h = (h, Ok (VNone, VNone))).
Proof.
  split.
  - intros t s h. eexists. split; [reflexivity|].
    split; [apply state_dict_dom|].
    split; [apply state_dict_lookup_state|].
    intros Hne. split; [by apply state_dict_lookup_type | by apply state_dict_size].
  - intros d h Hd. unfold unwrap_state_dict, lift.
    by rewrite unwrap_dict_untagged.
Qed.

(** C6: for an instance whose class is registered with marshaller [m], the
    encoder returns [m(instance)] as it is when the wrap flag is false, and
    the result of the configured wrap function on [(type_name, m(instance))]
    when it is true. *)
Theorem default_encoder_wrap_flag self obj typename m (wrap_flag : bool) h h1 state :
  marshallers (serializer self) !! py_class obj = Some (typename, m, wrap_flag) →
  m [obj] h = (h1, Ok state) →
  default_encoder qualified_name self obj h
  = if wrap_flag then wrap_callback self typename state h1 else (h1, Ok state).
Proof.
  apply default_encoder_marshalled.
Qed.

(** C10: the encoder dispatches on the exact class of the instance.  When
    that class has no entry the lookup error is raised even though a
    superclass is registered, and the outcome of encoding depends on the
    marshal table only through the entry of the exact class. *)
Theorem default_encoder_exact_class self obj h :
  (∀ sup entry,
      sup ∈ superclasses (py_class obj) →
      marshallers (serializer self) !! sup = Some entry →
      marshallers (serializer self) !! py_class obj = None →
      default_encoder qualified_name self obj h
      = (h, Raise (LookupError
           ("no marshaller found for type " +:+ dquote
            +:+ qualified_name (py_class obj) +:+ dquote))))
  ∧ (∀ ser',
      marshallers ser' !! py_class obj
      = marshallers (serializer self) !! py_class obj →
      default_encoder qualified_name
        {| serializer := ser'; type_key := type_key self;
           state_key := state_key self; wrap_callback := wrap_callback self;
           unwrap_callback := unwrap_callback self |} obj h
      = default_encoder qualified_name self obj h).
Proof.
  split.
  - intros sup entry _ _ Hnone. by apply default_encoder_unregistered.
  - intros ser' Heq. unfold default_encoder; cbv zeta. simpl. by rewrite Heq.
Qed.

(** C1 (amended): with the default wrap/unwrap pair and distinct type and
    state keys, for every class registered with a true wrap flag, marshaller
    [m] and an unmarshal entry under the same type name, decoding the
    encoding of an instance [x] yields exactly the value the unmarshal entry
    builds from [m(x)]; it is therefore observably equal to [x] for any
    per-type equality [R] under which the unmarshaller inverts [m]. *)
Theorem default_codec_roundtrip ser tk sk x typename m entry h h1 state h2 y
    (R : heap * value → heap * value → Prop) :
  tk ≠ sk →
  marshallers ser !! py_class x = Some (typename, m, true) →
  unmarshallers ser !! typename = Some entry →
  m [x] h = (h1, Ok state) →
  reconstruct entry state h1 = (h2, Ok y) →
  R (h, x) (h2, y) →
  (default_encoder qualified_name (init ser tk sk) x
     ≫= default_decoder py_repr (init ser tk sk)) h = (h2, Ok y)
  ∧ R (h, x) (h2, y).
Proof.
  intros Hne Hm Hu Hrun Hrec HR. split; [|done].
  erewrite bind_ok; last first.
  { by rewrite (default_encoder_marshalled (init ser tk sk) _ _ _ _ _ _ _ Hm Hrun). }
  rewrite <- Hrec. apply default_decoder_found with (name := typename); [|done].
  simpl. unfold lift. by rewrite unwrap_dict_state_dict.
Qed.

(** C4: encoding an instance whose class has no entry in the marshal table
    raises a [LookupError] whose message carries the qualified name of the
    class, without running any marshaller; with an entry, the outcome is the
    marshaller's, so the codec raises nothing of its own.  Decoding a
    recognized tagged value whose type name has no entry in the unmarshal
    table raises a [LookupError] carrying that name; with an entry, the
    outcome is that of the reconstruction. *)
Theorem unknown_type_errors self obj h :
  (marshallers (serializer self) !! py_class obj = None →
     default_encoder qualified_name self obj h
     = (h, Raise (LookupError
          ("no marshaller found for type " +:+ dquote
           +:+ qualified_name (py_class obj) +:+ dquote))))
  ∧ (∀ typename m (wrap_flag : bool),
       marshallers (serializer self) !! py_class obj
       = Some (typename, m, wrap_flag) →
       default_encoder qualified_name self obj h
       = (m [obj] ≫= λ state,
            if wrap_flag then wrap_callback self typename state
            else mret state) h)
  ∧ (∀ h' name state,
       unwrap_callback self obj h = (h', Ok (VStr name, state)) →
       unmarshallers (serializer self) !! name = None →
       default_decoder py_repr self obj h
       = (h', Raise (LookupError
            ("no unmarshaller found for type " +:+ dquote +:+ name +:+ dquote))))
  ∧ (∀ h' name state entry,
       unwrap_callback self obj h = (h', Ok (VStr name, state)) →
       unmarshallers (serializer self) !! name = Some entry →
       default_decoder py_repr self obj h = reconstruct entry state h').
Proof.
  split_and!.
  - apply default_encoder_unregistered.
  - intros typename m w Hreg. by rewrite (default_encoder_registered _ _ _ _ _ Hreg).
  - intros h' name state Hun Hnone.
    apply (default_decoder_not_found _ _ _ _ _ _ Hun); [done.. |].
    by intros ? [= <-].
  - intros h' name state entry. apply default_decoder_found.
Qed.

(** C5: for a recognized tagged value whose type name resolves to an
    unmarshal entry: with a factory, the decoder allocates a fresh instance
    of that class with no attribute set (no initializer has run), calls the
    unmarshal function on that instance and the state, discards what it
    returns and returns that same instance; without a factory, it returns
    what the unmarshal function returns on the state. *)
Theorem default_decoder_reconstructs self obj h h0 name state u :
  unwrap_callback self obj h = (h0, Ok (VStr name, state)) →
  (∀ cls, unmarshallers (serializer self) !! name = Some (Some cls, u) →
     let instance := VObj cls (length h0) in
     h0 !! length h0 = None
     ∧ (h0 ++ [∅]) !! length h0 = Some ∅
     ∧ default_decoder py_repr self obj h
       = match u [instance; state] (h0 ++ [∅]) with
         | (h', Ok _) => (h', Ok instance)
         | (h', Raise e) => (h', Raise e)
         end)
  ∧ (unmarshallers (serializer self) !! name = Some (None, u) →
     default_decoder py_repr self obj h = u [state] h0).
Proof.
  intros Hun. split.
  - intros cls Hu instance.
    destruct (py_new_fresh cls h0) as (_ & Hfresh & Hempty).
    split_and!; [done..|].
    rewrite (default_decoder_found _ _ _ _ _ _ _ Hun Hu).
    unfold reconstruct, py_new. unfold_M. subst instance.
    by destruct (u _ _) as [h' [r|e]].
  - intros Hu. by rewrite (default_decoder_found _ _ _ _ _ _ _ Hun Hu).
Qed.

(** C7: a codec constructed with [type_key = "t"] and [state_key = "s"]
    encodes a registered instance (wrap flag true) as a dictionary whose
    keys are exactly ["t"] and ["s"], never the default keys; decoding that
    dictionary reconstructs the instance from the marshalled state; and a
    two-entry dictionary under the default keys ["__type__"] and ["state"]
    is returned unchanged by the decoder. *)
Theorem custom_key_configuration ser x typename m h h1 state :
  marshallers ser !! py_class x = Some (typename, m, true) →
  m [x] h = (h1, Ok state) →
  (∃ d : gmap string value,
      default_encoder qualified_name (init ser "t" "s") x h = (h1, Ok (VDict d))
      ∧ dom d = {["t"; "s"]}
      ∧ d !! "t" = Some (VStr typename)
      ∧ d !! "s" = Some state
      ∧ d !! default_type_key = None
      ∧ d !! default_state_key = None
      ∧ ∀ entry, unmarshallers ser !! typename = Some entry →
          default_decoder py_repr (init ser "t" "s") (VDict d) h1
          = reconstruct entry state h1)
  ∧ (∀ a b h',
      let d := <[default_state_key := b]> (<[default_type_key := a]> ∅) in
      size d = 2
      ∧ default_decoder py_repr (init ser "t" "s") (VDict d) h'
        = (h', Ok (VDict d))).
Proof.
  intros Hreg Hm. split.
  - exists (state_dict "t" "s" typename state).
    split_and!.
    + by rewrite (default_encoder_marshalled (init ser "t" "s") _ _ _ _ _ _ _ Hreg Hm).
    + apply state_dict_dom.
    + by apply state_dict_lookup_type.
    + apply state_dict_lookup_state.
    + by apply state_dict_lookup_other.
    + by apply state_dict_lookup_other.
    + intros entry Hu.
      apply default_decoder_found with (name := typename); [|done].
      simpl. unfold lift. by rewrite unwrap_dict_state_dict.
  - intros a b h' d. split.
    + subst d. rewrite map_size_insert_None.
      * by rewrite map_size_insert_None, map_size_empty.
      * by rewrite lookup_insert_ne, lookup_empty.
    + apply default_decoder_untagged. left.
      subst d. by rewrite !lookup_insert_ne, lookup_empty.
Qed.

(** C8: an error raised by the marshal function during encoding, or by the
    unmarshal function during decoding (with or without a factory), is the
    outcome of the codec call, unchanged, together with the store the user
    function left. *)
Theorem user_errors_propagate self obj h h0 h' e :
  (∀ typename m (wrap_flag : bool),
      marshallers (serializer self) !! py_class obj
      = Some (typename, m, wrap_flag) →
      m [obj] h = (h', Raise e) →
      default_encoder qualified_name self obj h = (h', Raise e))
  ∧ (∀ name state u,
      unwrap_callback self obj h = (h0, Ok (VStr name, state)) →
      unmarshallers (serializer self) !! name = Some (None, u) →
      u [state] h0 = (h', Raise e) →
      default_decoder py_repr self obj h = (h', Raise e))
  ∧ (∀ name state cls u,
      unwrap_callback self obj h = (h0, Ok (VStr name, state)) →
      unmarshallers (serializer self) !! name = Some (Some cls, u) →
      u [VObj cls (length h0); state] (h0 ++ [∅]) = (h', Raise e) →
      default_decoder py_repr self obj h = (h', Raise e)).
Proof.
  split_and!.
  - intros typename m w Hreg Hm.
    rewrite (default_encoder_registered _ _ _ _ _ Hreg).
    by apply bind_raise.
  - intros name state u Hun Hu Hrun.
    by rewrite (default_decoder_found _ _ _ _ _ _ _ Hun Hu).
  - intros name state cls u Hun Hu Hrun.
    rewrite (default_decoder_found _ _ _ _ _ _ _ Hun Hu).
    unfold reconstruct, py_new. unfold_M. by rewrite Hrun.
Qed.

(** C9: a two-entry dictionary whose value at the type key is present and
    non-null but which has no state key is recognized all the same:
    [unwrap_state_dict] answers [(tag, None)], and the decoder reconstructs
    from the registered unmarshal entry with a null state. *)
Theorem tagged_without_state ser tk sk (d : gmap string value) t h :
  size d = 2 → d !! tk = Some t → t ≠ VNone → d !! sk = None →
  unwrap_state_dict (init ser tk sk) (VDict d) h = (h, Ok (t, VNone))
  ∧ (∀ name entry,
      t = VStr name →
      unmarshallers ser !! name = Some entry →
      default_decoder py_repr (init ser tk sk) (VDict d) h
      = reconstruct entry VNone h).
Proof.
  intros Hsz Ht Hn Hs.
  assert (unwrap_dict tk sk (VDict d) = Ok (t, VNone)) as Hun.
  { rewrite (unwrap_dict_tagged _ _ _ t) by done. by rewrite Hs. }
  split.
  - unfold unwrap_state_dict, lift. simpl. by rewrite Hun.
  - intros name entry -> Hu.
    apply default_decoder_found with (name := name); [|done].
    simpl. unfold lift. by rewrite Hun.
Qed.

End CodecProperties.

(** * The [Point] scenario: the statements above at concrete inputs *)

Lemma default_codec_roundtrip_witness :
  let self := point_codec true (Some Point) unmarshal_point "__type__" "state" in
  (encode self point_1_2 ≫= decode self) point_heap
  = (decoded_heap, Ok (VObj Point 1))
  ∧ instance_eq (point_heap, point_1_2) (decoded_heap, VObj Point 1).
Proof.
  apply (default_codec_roundtrip dotted_name plain_repr
           (point_registry true (Some Point) unmarshal_point)
           "__type__" "state" point_1_2 "Point" marshal_point
           (Some Point, unmarshal_point) point_heap point_heap
           (VDict (point_attrs 1 2)) decoded_heap (VObj Point 1) instance_eq).
  - discriminate.
  - reflexivity.
  - reflexivity.
  - reflexivity.
  - vm_compute. reflexivity.
  - vm_compute. split_and!; [reflexivity | eexists; reflexivity | reflexivity].
Defined.

(** With a false wrap flag the encoder hands out the bare state, which the
    decoder passes through: the round trip of [Point(1, 2)] ends on a
    dictionary although the registered unmarshaller inverts the marshaller. *)
Lemma roundtrip_unwrapped_counterexample :
  let ser := point_registry false (Some Point) unmarshal_point in
  let self := init ser "__type__" "state" in
  marshallers ser !! py_class point_1_2 = Some ("Point", marshal_point, false)
  ∧ unmarshallers ser !! "Point" = Some (Some Point, unmarshal_point)
  ∧ marshal_point [point_1_2] point_heap = (point_heap, Ok (VDict (point_attrs 1 2)))
  ∧ reconstruct (Some Point, unmarshal_point) (VDict (point_attrs 1 2)) point_heap
    = (decoded_heap, Ok (VObj Point 1))
  ∧ instance_eq (point_heap, point_1_2) (decoded_heap, VObj Point 1)
  ∧ (encode self point_1_2 ≫= decode self) point_heap
    = (point_heap, Ok (VDict (point_attrs 1 2)))
  ∧ ¬ instance_eq (point_heap, point_1_2) (point_heap, VDict (point_attrs 1 2)).
Proof.
  intros ser self.
  split; [reflexivity|]. split; [reflexivity|]. split; [reflexivity|].
  split; [vm_compute; reflexivity|].
  split.
  { vm_compute. split_and!; [reflexivity | eexists; reflexivity | reflexivity]. }
  split; [vm_compute; reflexivity|].
  intros H. exact H.
Qed.

Lemma default_decoder_passthrough_witness :
  decode (point_codec true (Some Point) unmarshal_point "__type__" "state")
    (VDict (point_attrs 1 2)) []
  = ([], Ok (VDict (point_attrs 1 2))).
Proof.
  apply (default_decoder_passthrough plain_repr).
  intros [_ (t & Ht & _)]. vm_compute in Ht. discriminate.
Defined.

(** [None] is a primitive value and not a two-entry composite, yet decoding
    it raises: [len(None)] is a [TypeError]. *)
Lemma default_decoder_none_counterexample :
  let self := point_codec true (Some Point) unmarshal_point "__type__" "state" in
  decode self VNone []
  = ([], Raise (TypeError "object of type 'NoneType' has no len()"))
  ∧ decode self VNone [] ≠ ([], Ok VNone).
Proof. split; [reflexivity | discriminate]. Qed.

Lemma tag_shape_invariant_witness :
  let self := point_codec true (Some Point) unmarshal_point "__type__" "state" in
  (∃ d : gmap string value,
      wrap_state_dict self "Point" (VNum 7) [] = ([], Ok (VDict d))
      ∧ d !! "__type__" = Some (VStr "Point") ∧ size d = 2)
  ∧ unwrap_state_dict self (VDict (point_attrs 1 2)) [] = ([], Ok (VNone, VNone)).
Proof.
  intros self. destruct (tag_shape_invariant self) as [Hwrap Hunwrap]. split.
  - destruct (Hwrap "Point" (VNum 7) []) as (d & Hd & _ & _ & Hkeys).
    exists d. split; [exact Hd|]. apply Hkeys. discriminate.
  - apply Hunwrap. left. reflexivity.
Defined.

Lemma unknown_type_errors_witness :
  let self := point_codec true (Some Point) unmarshal_point "__type__" "state" in
  encode self (VObj Point3D 0) point_heap
  = (point_heap,
     Raise (LookupError
       ("no marshaller found for type " +:+ dquote +:+ "geometry.Point3D" +:+ dquote)))
  ∧ decode self (VDict (state_dict "__type__" "state" "Circle" VNone)) []
    = ([], Raise (LookupError
        ("no unmarshaller found for type " +:+ dquote +:+ "Circle" +:+ dquote))).
Proof.
  intros self. split.
  - destruct (unknown_type_errors dotted_name plain_repr self
                (VObj Point3D 0) point_heap) as (Henc & _).
    apply Henc. reflexivity.
  - destruct (unknown_type_errors dotted_name plain_repr self
                (VDict (state_dict "__type__" "state" "Circle" VNone)) [])
      as (_ & _ & Hdec & _).
    apply (Hdec [] "Circle" VNone); [vm_compute; reflexivity | reflexivity].
Defined.

Lemma default_decoder_reconstructs_witness :
  decode (point_codec true (Some Point) unmarshal_point "__type__" "state")
    (VDict tagged_point) point_heap
  = (decoded_heap, Ok (VObj Point 1))
  ∧ decode (point_codec true None make_point "__type__" "state")
      (VDict tagged_point) point_heap
    = make_point [VDict (point_attrs 1 2)] point_heap.
Proof.
  split.
  - destruct (default_decoder_reconstructs plain_repr
                (point_codec true (Some Point) unmarshal_point "__type__" "state")
                (VDict tagged_point) point_heap point_heap "Point"
                (VDict (point_attrs 1 2)) unmarshal_point) as [Hfactory _].
    { vm_compute. reflexivity. }
    destruct (Hfactory Point) as (_ & _ & Hdec); [reflexivity|].
    etrans; [exact Hdec|]. vm_compute. reflexivity.
  - destruct (default_decoder_reconstructs plain_repr
                (point_codec true None make_point "__type__" "state")
                (VDict tagged_point) point_heap point_heap "Point"
                (VDict (point_attrs 1 2)) make_point) as [_ Hplain].
    { vm_compute. reflexivity. }
    apply Hplain. reflexivity.
Defined.

Lemma default_encoder_wrap_flag_witness :
  encode (point_codec true (Some Point) unmarshal_point "__type__" "state")
    point_1_2 point_heap
  = (point_heap, Ok (VDict tagged_point))
  ∧ encode (point_codec false (Some Point) unmarshal_point "__type__" "state")
      point_1_2 point_heap
    = (point_heap, Ok (VDict (point_attrs 1 2))).
Proof.
  split.
  - apply (default_encoder_wrap_flag dotted_name
             (point_codec true (Some Point) unmarshal_point "__type__" "state")
             point_1_2 "Point" marshal_point true point_heap point_heap
             (VDict (point_attrs 1 2))); reflexivity.
  - apply (default_encoder_wrap_flag dotted_name
             (point_codec false (Some Point) unmarshal_point "__type__" "state")
             point_1_2 "Point" marshal_point false point_heap point_heap
             (VDict (point_attrs 1 2))); reflexivity.
Defined.

Lemma custom_key_configuration_witness :
  let self := point_codec true (Some Point) unmarshal_point "t" "s" in
  let untagged : gmap string value :=
    <["state" := VDict (point_attrs 1 2)]> (<["__type__" := VStr "Point"]> ∅) in
  (∃ d : gmap string value,
      encode self point_1_2 point_heap = (point_heap, Ok (VDict d))
      ∧ dom d = {["t"; "s"]}
      ∧ decode self (VDict d) point_heap = (decoded_heap, Ok (VObj Point 1)))
  ∧ decode self (VDict untagged) point_heap = (point_heap, Ok (VDict untagged)).
Proof.
  intros self untagged.
  destruct (custom_key_configuration dotted_name plain_repr
              (point_registry true (Some Point) unmarshal_point)
              point_1_2 "Point" marshal_point point_heap point_heap
              (VDict (point_attrs 1 2))) as [Henc Hdefault];
    [reflexivity | reflexivity |].
  split.
  - destruct Henc as (d & Hd & Hdom & _ & _ & _ & _ & Hdec).
    exists d. split; [exact Hd|]. split; [exact Hdom|].
    etrans; [apply (Hdec (Some Point, unmarshal_point)); reflexivity|].
    vm_compute. reflexivity.
  - apply (Hdefault (VStr "Point") (VDict (point_attrs 1 2)) point_heap).
Defined.

(** A state without the attribute ["x"] makes [unmarshal_point] raise a
    [KeyError]; the decoder lets it through as it is. *)
Lemma user_errors_propagate_witness :
  let self := point_codec true (Some Point) unmarshal_point "__type__" "state" in
  let broken := state_dict "__type__" "state" "Point" (VDict ∅) in
  decode self (VDict broken) point_heap
  = (point_heap ++ [∅], Raise (KeyError (VStr "x")))
  ∧ encode self (VObj Point 5) point_heap
    = (point_heap, Raise (AttributeError "x"))
  ∧ decode (point_codec true None make_point "__type__" "state")
      (VDict broken) point_heap
    = (point_heap ++ [∅], Raise (KeyError (VStr "x"))).
Proof.
  intros self broken. split_and!.
  - destruct (user_errors_propagate dotted_name plain_repr self (VDict broken)
                point_heap point_heap (point_heap ++ [∅]) (KeyError (VStr "x")))
      as (_ & _ & Hfactory).
    apply (Hfactory "Point" (VDict ∅) Point unmarshal_point);
      vm_compute; reflexivity.
  - destruct (user_errors_propagate dotted_name plain_repr self (VObj Point 5)
                point_heap point_heap point_heap (AttributeError "x"))
      as (Henc & _).
    apply (Henc "Point" marshal_point true); reflexivity.
  - destruct (user_errors_propagate dotted_name plain_repr
                (point_codec true None make_point "__type__" "state")
                (VDict broken)
                point_heap point_heap (point_heap ++ [∅]) (KeyError (VStr "x")))
      as (_ & Hplain & _).
    apply (Hplain "Point" (VDict ∅) make_point); vm_compute; reflexivity.
Defined.

Lemma tagged_without_state_witness :
  let self := point_codec true (Some Point) unmarshal_point "__type__" "state" in
  let d : gmap string value :=
    <["other" := VNum 1]> (<["__type__" := VStr "Point"]> ∅) in
  unwrap_state_dict self (VDict d) point_heap
  = (point_heap, Ok (VStr "Point", VNone))
  ∧ decode self (VDict d) point_heap
    = reconstruct (Some Point, unmarshal_point) VNone point_heap.
Proof.
  intros self d.
  destruct (tagged_without_state plain_repr
              (point_registry true (Some Point) unmarshal_point)
              "__type__" "state" d (VStr "Point") point_heap)
    as [Hunwrap Hdec]; [reflexivity | reflexivity | discriminate | reflexivity |].
  split; [exact Hunwrap|].
  apply (Hdec "Point"); reflexivity.
Defined.

(** [Point3D] derives from the registered [Point] and is not registered. *)
Lemma default_encoder_exact_class_witness :
  let self := point_codec true (Some Point) unmarshal_point "__type__" "state" in
  Point ∈ superclasses Point3D
  ∧ is_Some (marshallers (serializer self) !! Point)
  ∧ encode self (VObj Point3D 0) point_heap
    = (point_heap,
       Raise (LookupError
         ("no marshaller found for type " +:+ dquote +:+ "geometry.Point3D" +:+ dquote))).
Proof.
  intros self.
  assert (Point ∈ superclasses Point3D) as Hsup by (simpl; left).
  split; [exact Hsup|]. split; [eexists; reflexivity|].
  destruct (default_encoder_exact_class dotted_name self (VObj Point3D 0) point_heap)
    as [Hraise _].
  apply (Hraise Point ("Point", marshal_point, true)); [exact Hsup | reflexivity..].
Defined.

(** * Further properties of the codec *)

(** A two-entry dictionary that holds a string tag and a state is the
    dictionary [wrap_state_dict] builds from them. *)
Lemma state_dict_of_tagged tk sk (d : gmap string value) t s :
  tk ≠ sk → size d = 2 → d !! tk = Some (VStr t) → d !! sk = Some s →
  state_dict tk sk t s = d.
Proof.
  intros Hne Hsz Ht Hs. apply map_eq. intros i. unfold state_dict.
  destruct (decide (i = sk)) as [->|Hisk]; [by rewrite lookup_insert_eq|].
  rewrite lookup_insert_ne by done.
  destruct (decide (i = tk)) as [->|Hitk]; [by rewrite lookup_insert_eq|].
  rewrite lookup_insert_ne by done. rewrite lookup_empty.
  assert (delete sk (delete tk d) = ∅) as Hempty.
  { apply map_size_empty_inv.
    rewrite map_size_delete_Some by (rewrite lookup_delete_ne by done; eauto).
    rewrite map_size_delete_Some by eauto. by rewrite Hsz. }
  assert (delete sk (delete tk d) !! i = None) as Hi
    by (rewrite Hempty; apply lookup_empty).
  by rewrite !lookup_delete_ne in Hi by done.
Qed.

Lemma state_dict_equal_keys k t s :
  state_dict k k t s = ({[k := s]} : gmap string value).
Proof. unfold state_dict. by rewrite insert_insert_eq, insert_empty. Qed.

Section CodecExtras.
Variable qualified_name : pyclass → string.
Variable py_repr : value → string.

(** X1: the default decoder on values that are not dictionaries.  [None],
    booleans and numbers have no length, so [len] raises a [TypeError];
    strings and sequences of length two pass the length test and fail on
    [.get] with an [AttributeError]; strings and sequences of any other
    length are returned unchanged. *)
Theorem default_decoder_non_dict ser tk sk h :
  default_decoder py_repr (init ser tk sk) VNone h
  = (h, Raise (TypeError "object of type 'NoneType' has no len()"))
  ∧ (∀ b, default_decoder py_repr (init ser tk sk) (VBool b) h
          = (h, Raise (TypeError "object of type 'bool' has no len()")))
  ∧ (∀ n, default_decoder py_repr (init ser tk sk) (VNum n) h
          = (h, Raise (TypeError "object of type 'int' has no len()")))
  ∧ (∀ s, String.length s = 2 →
          default_decoder py_repr (init ser tk sk) (VStr s) h
          = (h, Raise (AttributeError "'str' object has no attribute 'get'")))
  ∧ (∀ l, length l = 2 →
          default_decoder py_repr (init ser tk sk) (VList l) h
          = (h, Raise (AttributeError "'list' object has no attribute 'get'")))
  ∧ (∀ s, String.length s ≠ 2 →
          default_decoder py_repr (init ser tk sk) (VStr s) h = (h, Ok (VStr s)))
  ∧ (∀ l, length l ≠ 2 →
          default_decoder py_repr (init ser tk sk) (VList l) h = (h, Ok (VList l))).
Proof.
  split_and!.
  - by apply default_decoder_unwrap_raises.
  - intros b. by apply default_decoder_unwrap_raises.
  - intros n. by apply default_decoder_unwrap_raises.
  - intros s Hs. apply default_decoder_unwrap_raises.
    simpl. unfold lift, unwrap_dict. simpl. by rewrite decide_True.
  - intros l Hl. apply default_decoder_unwrap_raises.
    simpl. unfold lift, unwrap_dict. simpl. by rewrite decide_True.
  - intros s Hs. apply default_decoder_sentinel with (state := VNone).
    simpl. unfold lift, unwrap_dict. simpl. by rewrite decide_False.
  - intros l Hl. apply default_decoder_sentinel with (state := VNone).
    simpl. unfold lift, unwrap_dict. simpl. by rewrite decide_False.
Qed.

(** X2: a two-entry dictionary whose tag is a sequence or a dictionary is
    recognized as tagged, and the table lookup then fails on the unhashable
    key with a [TypeError]; the [except KeyError] clause does not turn it
    into the codec's [LookupError], and the store is left as it was. *)
Theorem default_decoder_unhashable_tag ser tk sk (d : gmap string value) t h :
  size d = 2 →
  d !! tk = Some t →
  (∃ l, t = VList l) ∨ (∃ m, t = VDict m) →
  ∃ msg, default_decoder py_repr (init ser tk sk) (VDict d) h
         = (h, Raise (TypeError msg)).
Proof.
  intros Hsz Ht Hkind.
  apply default_decoder_unhashable with (typename := t)
    (state := default VNone (d !! sk)).
  - simpl. unfold lift. rewrite (unwrap_dict_tagged _ _ _ t); [done..|].
    by destruct Hkind as [[? ->]|[? ->]].
  - by destruct Hkind as [[? ->]|[? ->]].
Qed.

(** X3: a two-entry dictionary whose tag is a boolean or a number is
    recognized as tagged; no table keyed by strings holds such a key, so
    the decoder raises its [LookupError], naming the tag as [str] renders
    it, whatever the unmarshal table contains. *)
Theorem default_decoder_non_string_tag ser tk sk (d : gmap string value) t h :
  size d = 2 →
  d !! tk = Some t →
  (∃ b, t = VBool b) ∨ (∃ n, t = VNum n) →
  default_decoder py_repr (init ser tk sk) (VDict d) h
  = (h, Raise (LookupError
       ("no unmarshaller found for type " +:+ dquote +:+ py_repr t +:+ dquote))).
Proof.
  intros Hsz Ht Hkind.
  rewrite (default_decoder_not_found py_repr (init ser tk sk) (VDict d) h h t
             (default VNone (d !! sk))).
  - by destruct Hkind as [[? ->]|[? ->]].
  - simpl. unfold lift. rewrite (unwrap_dict_tagged _ _ _ t); [done..|].
    by destruct Hkind as [[? ->]|[? ->]].
  - by destruct Hkind as [[? ->]|[? ->]].
  - by destruct Hkind as [[? ->]|[? ->]].
  - intros name ->. by destruct Hkind as [[? ?]|[? ?]].
Qed.

(** X4: with distinct keys, unwrapping what [wrap_state_dict] built gives
    back the type name and the state, whatever the state is (a nested
    tagged dictionary included). *)
Theorem unwrap_wrap_state_dict self typename state h :
  type_key self ≠ state_key self →
  (wrap_state_dict self typename state ≫= unwrap_state_dict self) h
  = (h, Ok (VStr typename, state)).
Proof.
  intros Hne. erewrite bind_ok by reflexivity.
  unfold unwrap_state_dict, lift. by rewrite unwrap_dict_state_dict.
Qed.

(** X5: conversely, a two-entry dictionary that holds a string under the
    type key and a value under the state key unwraps to that pair, and
    wrapping the pair gives the same dictionary back. *)
Theorem wrap_unwrap_state_dict self (d : gmap string value) typename state h :
  type_key self ≠ state_key self →
  size d = 2 →
  d !! type_key self = Some (VStr typename) →
  d !! state_key self = Some state →
  (unwrap_state_dict self (VDict d)
     ≫= λ '(t, s), match t with
                   | VStr name => wrap_state_dict self name s
                   | _ => mret VNone
                   end) h
  = (h, Ok (VDict d)).
Proof.
  intros Hne Hsz Ht Hs.
  erewrite bind_ok; last first.
  { unfold unwrap_state_dict, lift.
    rewrite (unwrap_dict_tagged _ _ _ (VStr typename)) by done.
    rewrite Hs. reflexivity. }
  simpl. unfold wrap_state_dict. unfold_M.
  by rewrite (state_dict_of_tagged _ _ d).
Qed.

(** X6: nothing prevents a codec whose type key and state key are the same
    string.  Then the dictionary display keeps one entry, the state;
    [unwrap_state_dict] does not recognize it, and decoding the encoding of
    a registered instance returns that one-entry dictionary without running
    any unmarshaller. *)
Theorem equal_keys_collapse ser k x typename m h h1 state :
  marshallers ser !! py_class x = Some (typename, m, true) →
  m [x] h = (h1, Ok state) →
  default_encoder qualified_name (init ser k k) x h
  = (h1, Ok (VDict {[k := state]}))
  ∧ unwrap_state_dict (init ser k k) (VDict {[k := state]}) h1
    = (h1, Ok (VNone, VNone))
  ∧ (default_encoder qualified_name (init ser k k) x
       ≫= default_decoder py_repr (init ser k k)) h
    = (h1, Ok (VDict {[k := state]})).
Proof.
  intros Hreg Hm.
  assert (default_encoder qualified_name (init ser k k) x h
          = (h1, Ok (VDict {[k := state]}))) as Henc.
  { rewrite (default_encoder_marshalled qualified_name (init ser k k)
               _ _ _ _ _ _ _ Hreg Hm).
    simpl. unfold_M. by rewrite state_dict_equal_keys. }
  assert (size ({[k := state]} : gmap string value) ≠ 2) as Hsz
    by (rewrite map_size_singleton; lia).
  split_and!; [done | |].
  - unfold unwrap_state_dict, lift. rewrite unwrap_dict_untagged; auto.
  - rewrite (bind_ok _ _ _ _ _ Henc).
    apply default_decoder_untagged. auto.
Qed.

(** X7: with a false wrap flag the encoder hands out the bare marshalled
    state, and the decoder treats it like any other value.  A dictionary
    state that does not have the tagged shape comes back as it is, the
    unmarshaller never runs; a dictionary state that happens to have the
    tagged shape is reconstructed by the unmarshal entry its tag names. *)
Theorem unwrapped_roundtrip ser tk sk x typename m h h1 (d : gmap string value) :
  marshallers ser !! py_class x = Some (typename, m, false) →
  m [x] h = (h1, Ok (VDict d)) →
  (d !! tk = None ∨ d !! tk = Some VNone ∨ size d ≠ 2 →
   (default_encoder qualified_name (init ser tk sk) x
      ≫= default_decoder py_repr (init ser tk sk)) h
   = (h1, Ok (VDict d)))
  ∧ (∀ name entry,
       size d = 2 →
       d !! tk = Some (VStr name) →
       unmarshallers ser !! name = Some entry →
       (default_encoder qualified_name (init ser tk sk) x
          ≫= default_decoder py_repr (init ser tk sk)) h
       = reconstruct entry (default VNone (d !! sk)) h1).
Proof.
  intros Hreg Hm.
  assert (default_encoder qualified_name (init ser tk sk) x h
          = (h1, Ok (VDict d))) as Henc
    by (by rewrite (default_encoder_marshalled qualified_name (init ser tk sk)
                      _ _ _ _ _ _ _ Hreg Hm)).
  split.
  - intros Hd. rewrite (bind_ok _ _ _ _ _ Henc).
    by apply default_decoder_untagged.
  - intros name entry Hsz Ht Hu. rewrite (bind_ok _ _ _ _ _ Henc).
    apply default_decoder_found with (name := name); [|done].
    simpl. unfold lift. by rewrite (unwrap_dict_tagged _ _ _ (VStr name)).
Qed.

(** X8: the dispatch does not depend on the dictionary convention.  For a
    codec with any pair of callbacks such that the unwrap callback recovers
    the type name and the state from what the wrap callback produced,
    decoding the encoding of a registered instance (wrap flag true) is the
    reconstruction of the marshalled state by the unmarshal entry. *)
Theorem pluggable_strategy_roundtrip self x typename m entry h h1 h2 h3 state w :
  marshallers (serializer self) !! py_class x = Some (typename, m, true) →
  unmarshallers (serializer self) !! typename = Some entry →
  m [x] h = (h1, Ok state) →
  wrap_callback self typename state h1 = (h2, Ok w) →
  unwrap_callback self w h2 = (h3, Ok (VStr typename, state)) →
  (default_encoder qualified_name self x ≫= default_decoder py_repr self) h
  = reconstruct entry state h3.
Proof.
  intros Hreg Hu Hm Hwrap Hunwrap.
  erewrite bind_ok; last first.
  { rewrite (default_encoder_marshalled qualified_name self
               _ _ _ _ _ _ _ Hreg Hm). exact Hwrap. }
  by apply default_decoder_found with (name := typename).
Qed.

(** X9: an error raised by the configured wrap callback (after the
    marshaller has run) or by the configured unwrap callback (before any
    table lookup) is the outcome of the codec call, unchanged. *)
Theorem callback_errors_propagate self obj h h1 h2 e :
  (∀ typename m state,
      marshallers (serializer self) !! py_class obj = Some (typename, m, true) →
      m [obj] h = (h1, Ok state) →
      wrap_callback self typename state h1 = (h2, Raise e) →
      default_encoder qualified_name self obj h = (h2, Raise e))
  ∧ (unwrap_callback self obj h = (h2, Raise e) →
     default_decoder py_repr self obj h = (h2, Raise e)).
Proof.
  split.
  - intros typename m state Hreg Hm Hwrap.
    by rewrite (default_encoder_marshalled qualified_name self
                  _ _ _ _ _ _ _ Hreg Hm).
  - apply default_decoder_unwrap_raises.
Qed.

(** X10: a class that is registered for marshalling only.  Its instances
    encode without error (wrap flag true, distinct keys), and decoding that
    encoding raises the codec's [LookupError] naming the type name, in the
    store the marshaller left. *)
Theorem marshal_only_roundtrip ser tk sk x typename m h h1 state :
  tk ≠ sk →
  marshallers ser !! py_class x = Some (typename, m, true) →
  unmarshallers ser !! typename = None →
  m [x] h = (h1, Ok state) →
  (default_encoder qualified_name (init ser tk sk) x
     ≫= default_decoder py_repr (init ser tk sk)) h
  = (h1, Raise (LookupError
       ("no unmarshaller found for type " +:+ dquote +:+ typename +:+ dquote))).
Proof.
  intros Hne Hreg Hu Hm.
  erewrite bind_ok; last first.
  { by rewrite (default_encoder_marshalled qualified_name (init ser tk sk)
                  _ _ _ _ _ _ _ Hreg Hm). }
  rewrite (default_decoder_not_found py_repr (init ser tk sk) _ h1 h1
             (VStr typename) state); [done | | done | done |].
  - simpl. unfold lift. by rewrite unwrap_dict_state_dict.
  - by intros ? [= <-].
Qed.

(** X11: the class of a decoded instance is the factory of the unmarshal
    entry found under the type name, not the class of the object that was
    encoded: the encoding carries the name only. *)
Theorem decoded_class_is_factory ser tk sk x typename m factory u h h1 h2 state r :
  tk ≠ sk →
  marshallers ser !! py_class x = Some (typename, m, true) →
  unmarshallers ser !! typename = Some (Some factory, u) →
  m [x] h = (h1, Ok state) →
  u [VObj factory (length h1); state] (h1 ++ [∅]) = (h2, Ok r) →
  ∃ y,
    (default_encoder qualified_name (init ser tk sk) x
       ≫= default_decoder py_repr (init ser tk sk)) h = (h2, Ok y)
    ∧ py_class y = factory.
Proof.
  intros Hne Hreg Hu Hm Hrun. exists (VObj factory (length h1)).
  split; [|done].
  erewrite bind_ok; last first.
  { by rewrite (default_encoder_marshalled qualified_name (init ser tk sk)
                  _ _ _ _ _ _ _ Hreg Hm). }
  rewrite (default_decoder_found py_repr (init ser tk sk) _ h1 h1 typename state
             (Some factory, u)); [| |done].
  - unfold reconstruct, py_new. unfold_M. by rewrite Hrun.
  - simpl. unfold lift. by rewrite unwrap_dict_state_dict.
Qed.

End CodecExtras.

(** * The further properties at concrete inputs *)

Lemma default_decoder_non_dict_witness :
  let self := point_codec true (Some Point) unmarshal_point "__type__" "state" in
  decode self (VStr "ab") []
  = ([], Raise (AttributeError "'str' object has no attribute 'get'"))
  ∧ decode self (VList [VNum 1; VNum 2]) []
    = ([], Raise (AttributeError "'list' object has no attribute 'get'"))
  ∧ decode self (VStr "abc") [] = ([], Ok (VStr "abc"))
  ∧ decode self (VList [VNum 1]) [] = ([], Ok (VList [VNum 1])).
Proof.
  intros self.
  destruct (default_decoder_non_dict plain_repr
              (point_registry true (Some Point) unmarshal_point)
              "__type__" "state" [])
    as (_ & _ & _ & Hstr2 & Hlist2 & Hstr & Hlist).
  split_and!.
  - apply Hstr2. reflexivity.
  - apply Hlist2. reflexivity.
  - apply Hstr. simpl. lia.
  - apply Hlist. simpl. lia.
Defined.

Lemma default_decoder_unhashable_tag_witness :
  let d : gmap string value :=
    <["state" := VNum 1]> (<["__type__" := VList [VStr "Point"]]> ∅) in
  ∃ msg,
    decode (point_codec true (Some Point) unmarshal_point "__type__" "state")
      (VDict d) point_heap
    = (point_heap, Raise (TypeError msg)).
Proof.
  intros d.
  apply (default_decoder_unhashable_tag plain_repr
           (point_registry true (Some Point) unmarshal_point)
           "__type__" "state" d (VList [VStr "Point"]) point_heap).
  - reflexivity.
  - reflexivity.
  - left. eexists. reflexivity.
Defined.

Lemma default_decoder_non_string_tag_witness :
  let d : gmap string value :=
    <["state" := VNum 1]> (<["__type__" := VBool true]> ∅) in
  decode (point_codec true (Some Point) unmarshal_point "__type__" "state")
    (VDict d) point_heap
  = (point_heap,
     Raise (LookupError
       ("no unmarshaller found for type " +:+ dquote +:+ "True" +:+ dquote))).
Proof.
  intros d.
  apply (default_decoder_non_string_tag plain_repr
           (point_registry true (Some Point) unmarshal_point)
           "__type__" "state" d (VBool true) point_heap).
  - reflexivity.
  - reflexivity.
  - left. eexists. reflexivity.
Defined.

(** The state is itself a tagged dictionary: one level is unwrapped. *)
Lemma unwrap_wrap_state_dict_witness :
  let self := point_codec true (Some Point) unmarshal_point "__type__" "state" in
  (wrap_state_dict self "Segment" (VDict tagged_point) ≫= unwrap_state_dict self) []
  = ([], Ok (VStr "Segment", VDict tagged_point)).
Proof.
  intros self.
  apply (unwrap_wrap_state_dict self "Segment" (VDict tagged_point) []).
  discriminate.
Defined.

Lemma wrap_unwrap_state_dict_witness :
  let self := point_codec true (Some Point) unmarshal_point "__type__" "state" in
  let d : gmap string value :=
    <["__type__" := VStr "Point"]> (<["state" := VNone]> ∅) in
  (unwrap_state_dict self (VDict d)
     ≫= λ '(t, s), match t with
                   | VStr name => wrap_state_dict self name s
                   | _ => mret VNone
                   end) []
  = ([], Ok (VDict d)).
Proof.
  intros self d.
  apply (wrap_unwrap_state_dict self d "Point" VNone []).
  - discriminate.
  - reflexivity.
  - reflexivity.
  - reflexivity.
Defined.

Lemma equal_keys_collapse_witness :
  let self := point_codec true (Some Point) unmarshal_point "tag" "tag" in
  encode self point_1_2 point_heap
  = (point_heap, Ok (VDict {["tag" := VDict (point_attrs 1 2)]}))
  ∧ (encode self point_1_2 ≫= decode self) point_heap
    = (point_heap, Ok (VDict {["tag" := VDict (point_attrs 1 2)]})).
Proof.
  intros self.
  destruct (equal_keys_collapse dotted_name plain_repr
              (point_registry true (Some Point) unmarshal_point) "tag"
              point_1_2 "Point" marshal_point point_heap point_heap
              (VDict (point_attrs 1 2))) as (Henc & _ & Hround);
    [reflexivity | reflexivity |].
  split; [exact Henc | exact Hround].
Defined.

Lemma unwrapped_roundtrip_witness :
  let self := init alias_registry "__type__" "state" in
  (encode self point_1_2 ≫= decode self) point_heap
  = (point_heap, Ok (VDict (point_attrs 1 2)))
  ∧ (encode self (VObj Alias 0) ≫= decode self) point_heap
    = (decoded_heap, Ok (VObj Point 1)).
Proof.
  intros self. split.
  - destruct (unwrapped_roundtrip dotted_name plain_repr alias_registry
                "__type__" "state" point_1_2 "Point" marshal_point
                point_heap point_heap (point_attrs 1 2)) as [Hplain _];
      [reflexivity | reflexivity |].
    apply Hplain. left. reflexivity.
  - destruct (unwrapped_roundtrip dotted_name plain_repr alias_registry
                "__type__" "state" (VObj Alias 0) "Alias" marshal_as_point
                point_heap point_heap tagged_point) as [_ Htagged];
      [reflexivity | reflexivity |].
    etrans.
    { apply (Htagged "Point" (Some Point, unmarshal_point)); reflexivity. }
    vm_compute. reflexivity.
Defined.

Lemma pluggable_strategy_roundtrip_witness :
  let self :=
    with_callbacks
      (point_codec true (Some Point) unmarshal_point "__type__" "state")
      pair_wrap pair_unwrap in
  encode self point_1_2 point_heap
  = (point_heap, Ok (VList [VStr "Point"; VDict (point_attrs 1 2)]))
  ∧ (encode self point_1_2 ≫= decode self) point_heap
    = (decoded_heap, Ok (VObj Point 1)).
Proof.
  intros self. split; [vm_compute; reflexivity|].
  etrans.
  { apply (pluggable_strategy_roundtrip dotted_name plain_repr self point_1_2
             "Point" marshal_point (Some Point, unmarshal_point)
             point_heap point_heap point_heap point_heap
             (VDict (point_attrs 1 2))
             (VList [VStr "Point"; VDict (point_attrs 1 2)])); reflexivity. }
  vm_compute. reflexivity.
Defined.

Lemma callback_errors_propagate_witness :
  let base := point_codec true (Some Point) unmarshal_point "__type__" "state" in
  encode (with_callbacks base failing_wrap pair_unwrap) point_1_2 point_heap
  = (point_heap, Raise (UserError "ValueError" [VStr "cannot wrap"]))
  ∧ decode (with_callbacks base pair_wrap failing_unwrap) (VDict tagged_point)
      point_heap
    = (point_heap, Raise (UserError "ValueError" [VStr "cannot unwrap"])).
Proof.
  intros base. split.
  - destruct (callback_errors_propagate dotted_name plain_repr
                (with_callbacks base failing_wrap pair_unwrap) point_1_2
                point_heap point_heap point_heap
                (UserError "ValueError" [VStr "cannot wrap"])) as [Hwrap _].
    apply (Hwrap "Point" marshal_point (VDict (point_attrs 1 2))); reflexivity.
  - destruct (callback_errors_propagate dotted_name plain_repr
                (with_callbacks base pair_wrap failing_unwrap)
                (VDict tagged_point)
                point_heap point_heap point_heap
                (UserError "ValueError" [VStr "cannot unwrap"])) as [_ Hunwrap].
    apply Hunwrap. reflexivity.
Defined.

Lemma marshal_only_roundtrip_witness :
  let self := init marshal_only_registry "__type__" "state" in
  encode self point_1_2 point_heap = (point_heap, Ok (VDict tagged_point))
  ∧ (encode self point_1_2 ≫= decode self) point_heap
    = (point_heap,
       Raise (LookupError
         ("no unmarshaller found for type " +:+ dquote +:+ "Point" +:+ dquote))).
Proof.
  intros self. split; [vm_compute; reflexivity|].
  apply (marshal_only_roundtrip dotted_name plain_repr marshal_only_registry
           "__type__" "state" point_1_2 "Point" marshal_point
           point_heap point_heap (VDict (point_attrs 1 2)));
    [discriminate | reflexivity..].
Defined.

Lemma decoded_class_is_factory_witness :
  let self := init shared_name_registry "__type__" "state" in
  ∃ y, (encode self (VObj Point3D 0) ≫= decode self) point_heap
       = (decoded_heap, Ok y)
       ∧ py_class y = Point.
Proof.
  intros self.
  apply (decoded_class_is_factory dotted_name plain_repr shared_name_registry
           "__type__" "state" (VObj Point3D 0) "Point" marshal_point Point
           unmarshal_point point_heap point_heap decoded_heap
           (VDict (point_attrs 1 2)) VNone).
  - discriminate.
  - reflexivity.
  - reflexivity.
  - reflexivity.
  - vm_compute. reflexivity.
Defined.
